(** * Shallow embedding of [src/main.rs] of wgpu-logic-game

    The program is a winit application that owns one window and one wgpu
    [State] (surface, device, queue, surface configuration, cached size).
    Calls into winit and wgpu are modelled as effects appended to a trace;
    [unwrap], [expect] and out-of-range indexing are modelled as a panic.
    Values the platform or the driver decides (the window's physical size,
    the reported surface capabilities, the outcome of
    [get_current_texture]) are inputs of the modelled functions. *)

From Stdlib Require Import List String ZArith QArith Bool Lia.
Import ListNotations.
Local Close Scope Q_scope.

(* ------------------------------------------------------------------ *)
(** ** winit data *)

Record PhysicalSize := mkPhysicalSize { width : Z; height : Z }.

(** [LogicalSize<f64>]; the program only builds integral logical sizes
    ([LogicalSize::new(1280, 720)]), so the coordinates are kept as [Z]. *)
Record LogicalSize := mkLogicalSize { lwidth : Z; lheight : Z }.

(** [winit::dpi::Size] *)
Inductive Size :=
| Physical (p : PhysicalSize)
| Logical (l : LogicalSize).

(** [Size::to_physical(scale_factor)] for the scale factor [1.0] used by
    the program: a physical size is returned as it is, a logical size with
    integral coordinates is multiplied by [1.0], which leaves it unchanged. *)
Definition to_physical_1 (s : Size) : PhysicalSize :=
  match s with
  | Physical p => p
  | Logical l => mkPhysicalSize (lwidth l) (lheight l)
  end.

(** [WindowButtons] bitflags: [CLOSE = 1 << 0], [MINIMIZE = 1 << 1],
    [MAXIMIZE = 1 << 2]. *)
Definition WindowButtons_CLOSE : Z := Z.shiftl 1 0.
Definition WindowButtons_MINIMIZE : Z := Z.shiftl 1 1.
Definition WindowButtons_MAXIMIZE : Z := Z.shiftl 1 2.
Definition WindowButtons_all : Z :=
  Z.lor WindowButtons_CLOSE (Z.lor WindowButtons_MINIMIZE WindowButtons_MAXIMIZE).

(** [WindowAttributes], restricted to the fields the program sets. *)
Record WindowAttributes := mkWindowAttributes {
  title : string;
  resizable : bool;
  enabled_buttons : Z;
  inner_size : option Size;
}.

(** [Window::default_attributes()] *)
Definition default_attributes : WindowAttributes :=
  {| title := "winit window"; resizable := true;
     enabled_buttons := WindowButtons_all; inner_size := None |}.

Definition with_title (t : string) (w : WindowAttributes) : WindowAttributes :=
  {| title := t; resizable := resizable w;
     enabled_buttons := enabled_buttons w; inner_size := inner_size w |}.
Definition with_resizable (b : bool) (w : WindowAttributes) : WindowAttributes :=
  {| title := title w; resizable := b;
     enabled_buttons := enabled_buttons w; inner_size := inner_size w |}.
Definition with_enabled_buttons (bs : Z) (w : WindowAttributes) : WindowAttributes :=
  {| title := title w; resizable := resizable w;
     enabled_buttons := bs; inner_size := inner_size w |}.
Definition with_inner_size (s : Size) (w : WindowAttributes) : WindowAttributes :=
  {| title := title w; resizable := resizable w;
     enabled_buttons := enabled_buttons w; inner_size := Some s |}.

Definition WindowId := nat.

(** A created window: its id, its physical inner size as decided by the
    platform, and the attributes it was created with. *)
Record Window := mkWindow {
  win_id : WindowId;
  win_inner_size : PhysicalSize;
  win_attrs : WindowAttributes;
}.

Inductive ElementState := Pressed | Released.

Inductive KeyCode := Escape | Enter | Space | KeyA | OtherKeyCode (n : nat).

Inductive PhysicalKey :=
| Code (k : KeyCode)
| Unidentified (native : nat).

(** [KeyEvent], restricted to the fields relevant to matching on it
    ([logical_key], [text], [location] are matched by [..]). *)
Record KeyEvent := mkKeyEvent {
  physical_key : PhysicalKey;
  key_state : ElementState;
  repeat : bool;
}.

(** [WindowEvent]; every other variant is [OtherEvent]. *)
Inductive WindowEvent :=
| CloseRequested
| KeyboardInput (device_id : nat) (event : KeyEvent) (is_synthetic : bool)
| Resized (s : PhysicalSize)
| RedrawRequested
| OtherEvent (n : nat).

(* ------------------------------------------------------------------ *)
(** ** wgpu data *)

(** [wgpu::TextureFormat] (a representative set of variants). *)
Inductive TextureFormat :=
| R8Unorm | Rgba8Unorm | Rgba8UnormSrgb | Bgra8Unorm | Bgra8UnormSrgb
| Rgb10a2Unorm | Rgba16Float | Bc1RgbaUnorm | Bc1RgbaUnormSrgb.

(** [TextureFormat::remove_srgb_suffix] *)
Definition remove_srgb_suffix (f : TextureFormat) : TextureFormat :=
  match f with
  | Rgba8UnormSrgb => Rgba8Unorm
  | Bgra8UnormSrgb => Bgra8Unorm
  | Bc1RgbaUnormSrgb => Bc1RgbaUnorm
  | f => f
  end.

Definition TextureFormat_eqb (x y : TextureFormat) : bool :=
  match x, y with
  | R8Unorm, R8Unorm | Rgba8Unorm, Rgba8Unorm
  | Rgba8UnormSrgb, Rgba8UnormSrgb | Bgra8Unorm, Bgra8Unorm
  | Bgra8UnormSrgb, Bgra8UnormSrgb | Rgb10a2Unorm, Rgb10a2Unorm
  | Rgba16Float, Rgba16Float | Bc1RgbaUnorm, Bc1RgbaUnorm
  | Bc1RgbaUnormSrgb, Bc1RgbaUnormSrgb => true
  | _, _ => false
  end.

(** [TextureFormat::is_srgb]: [*self != self.remove_srgb_suffix()] *)
Definition is_srgb (f : TextureFormat) : bool :=
  negb (TextureFormat_eqb f (remove_srgb_suffix f)).

Inductive PresentMode := AutoVsync | AutoNoVsync | Fifo | FifoRelaxed | Immediate | Mailbox.

Inductive CompositeAlphaMode := AlphaAuto | Opaque | PreMultiplied | PostMultiplied | Inherit.

(** [TextureUsages] bitflags; [RENDER_ATTACHMENT = 1 << 4]. *)
Definition TextureUsages_RENDER_ATTACHMENT : Z := Z.shiftl 1 4.

Record SurfaceConfiguration := mkSurfaceConfiguration {
  usage : Z;
  format : TextureFormat;
  cfg_width : Z;
  cfg_height : Z;
  present_mode : PresentMode;
  desired_maximum_frame_latency : Z;
  alpha_mode : CompositeAlphaMode;
  view_formats : list TextureFormat;
}.

Record SurfaceCapabilities := mkSurfaceCapabilities {
  formats : list TextureFormat;
  present_modes : list PresentMode;
  alpha_modes : list CompositeAlphaMode;
  cap_usages : Z;
}.

(** Opaque GPU handles. *)
Record Surface := mkSurface { surface_id : nat }.
Record Device := mkDevice { device_id : nat }.
Record Queue := mkQueue { queue_id : nat }.

Record Texture := mkTexture { tex_id : nat; tex_width : Z; tex_height : Z }.
Record SurfaceTexture := mkSurfaceTexture { st_texture : Texture }.

(** [Texture::create_view(&TextureViewDescriptor::default())] *)
Record TextureView := mkTextureView { view_of : nat }.
Definition create_view (t : Texture) : TextureView := mkTextureView (tex_id t).

Inductive SurfaceError := Timeout | Outdated | Lost | OutOfMemory.

(** [wgpu::Color]; the program only uses decimal literals, kept exactly. *)
Record Color := mkColor { r : Q; g : Q; b : Q; a : Q }.

Inductive LoadOp := Clear (c : Color) | Load.
Inductive StoreOp := Store | Discard.

Record Operations := mkOperations { load : LoadOp; store : StoreOp }.

Record RenderPassColorAttachment := mkRenderPassColorAttachment {
  att_view : TextureView;
  resolve_target : option TextureView;
  ops : Operations;
}.

(** A recorded render pass (the descriptor it was begun with). *)
Record RenderPass := mkRenderPass {
  pass_label : option string;
  color_attachments : list (option RenderPassColorAttachment);
  depth_stencil_attachment : option unit;
}.

(** A command encoder and the passes recorded into it so far. *)
Record CommandEncoder := mkCommandEncoder {
  enc_label : option string;
  enc_passes : list RenderPass;
}.

Record CommandBuffer := mkCommandBuffer { buf_passes : list RenderPass }.

Definition create_command_encoder (label : option string) : CommandEncoder :=
  mkCommandEncoder label [].

(** [encoder.begin_render_pass(desc)]: the pass (dropped at the end of its
    block without drawing) is recorded into the encoder. *)
Definition begin_render_pass (e : CommandEncoder) (p : RenderPass) : CommandEncoder :=
  mkCommandEncoder (enc_label e) (enc_passes e ++ [p]).

Definition finish (e : CommandEncoder) : CommandBuffer :=
  mkCommandBuffer (enc_passes e).

(* ------------------------------------------------------------------ *)
(** ** Effects and the panic/trace monad *)

Inductive Effect :=
| ECreateWindow (attrs : WindowAttributes)
| ERequestRedraw (w : WindowId)
| EConfigure (s : Surface) (c : SurfaceConfiguration)
| ESubmit (q : Queue) (bufs : list CommandBuffer)
| EPresent (t : Texture)
| EExit
| EPrint (msg : string)
| ELogError (e : SurfaceError).

Inductive Outcome (A : Type) :=
| Done (x : A) (trace : list Effect)
| Panic (msg : string).
Arguments Done {A}.
Arguments Panic {A}.

(** A computation reads the trace so far and extends it, or panics. *)
Definition M (A : Type) := list Effect -> Outcome A.

Definition ret {A} (x : A) : M A := fun tr => Done x tr.
Definition bind {A B} (m : M A) (k : A -> M B) : M B :=
  fun tr => match m tr with
            | Done x tr' => k x tr'
            | Panic msg => Panic msg
            end.
Definition emit (e : Effect) : M unit := fun tr => Done tt (tr ++ [e]).
Definition panic {A} (msg : string) : M A := fun _ => Panic msg.

Notation "x <- m ;; k" := (bind m (fun x => k))
  (at level 61, m at next level, right associativity).
Notation "m ;;; k" := (bind m (fun _ => k))
  (at level 61, right associativity).

(** [Option::unwrap] / [Option::expect] *)
Definition unwrap {A} (o : option A) (msg : string) : M A :=
  match o with Some x => ret x | None => panic msg end.

(** Slice indexing [v[i]]: panics out of range. *)
Definition index {A} (l : list A) (i : nat) : M A :=
  unwrap (nth_error l i) "index out of bounds".

(* ------------------------------------------------------------------ *)
(** ** The environment: what the platform and the driver answer *)

(** The answers of winit and wgpu that the program cannot choose:
    the created window (or a creation failure), whether a surface,
    an adapter and a device could be obtained, and the surface's
    capabilities for the adapter. *)
Record Env := mkEnv {
  env_window : option (WindowId * PhysicalSize);
  env_surface : option Surface;
  env_adapter : option nat;
  env_device : option (Device * Queue);
  env_caps : SurfaceCapabilities;
}.

(* ------------------------------------------------------------------ *)
(** ** [struct State] and [impl State] *)

Record State := mkState {
  surface : Surface;
  device : Device;
  queue : Queue;
  config : SurfaceConfiguration;
  size : Size;
}.

(** The format selection of [State::new]:
    [formats.iter().copied().filter(|s| s.is_srgb()).next()
       .unwrap_or(surface_capabilities.formats[0])].
    The argument of [unwrap_or] is evaluated eagerly, so [formats[0]] is
    indexed before the choice is made. *)
Definition select_surface_format (fs : list TextureFormat) : M TextureFormat :=
  let first_srgb := hd_error (filter is_srgb fs) in
  fallback <- index fs 0 ;;
  ret (match first_srgb with Some f => f | None => fallback end).

(** [State::new(window).block_on()] *)
Definition State_new (window : Window) (env : Env) : M State :=
  let size0 := win_inner_size window in
  surface0 <- unwrap (env_surface env)
    "An error occured while creating a surface with the instance" ;;
  _adapter <- unwrap (env_adapter env)
    "An error occured while requesting an adapter with the instance" ;;
  dq <- unwrap (env_device env)
    "An error occured while requesting a device from the adapter" ;;
  let surface_capabilities := env_caps env in
  surface_format <- select_surface_format (formats surface_capabilities) ;;
  alpha <- index (alpha_modes surface_capabilities) 0 ;;
  let config0 := {| cfg_width := width size0;
                    cfg_height := height size0;
                    present_mode := Fifo;
                    alpha_mode := alpha;
                    format := surface_format;
                    view_formats := [];
                    desired_maximum_frame_latency := 2;
                    usage := TextureUsages_RENDER_ATTACHMENT |} in
  ret {| size := Physical size0;
         config := config0;
         device := fst dq;
         queue := snd dq;
         surface := surface0 |}.

(** [State::resize] (the width and height are [u32]) *)
Definition resize (self : State) (size0 : PhysicalSize) : M State :=
  if ((width size0 <=? 0) || (height size0 <=? 0))%Z then ret self
  else
    let self1 := {| surface := surface self; device := device self;
                    queue := queue self; config := config self;
                    size := Physical size0 |} in
    let c := config self1 in
    let c1 := {| usage := usage c; format := format c;
                 cfg_width := width size0; cfg_height := cfg_height c;
                 present_mode := present_mode c;
                 desired_maximum_frame_latency := desired_maximum_frame_latency c;
                 alpha_mode := alpha_mode c; view_formats := view_formats c |} in
    let c2 := {| usage := usage c1; format := format c1;
                 cfg_width := cfg_width c1; cfg_height := height size0;
                 present_mode := present_mode c1;
                 desired_maximum_frame_latency := desired_maximum_frame_latency c1;
                 alpha_mode := alpha_mode c1; view_formats := view_formats c1 |} in
    let self2 := {| surface := surface self1; device := device self1;
                    queue := queue self1; config := c2; size := size self1 |} in
    emit (EConfigure (surface self2) (config self2)) ;;;
    ret self2.

(** [State::input]: returns [false], the state is untouched. *)
Definition input (self : State) (_event : WindowEvent) : bool * State :=
  (false, self).

(** [State::update]: empty. *)
Definition update (self : State) : State := self.

(** [Result<(), wgpu::SurfaceError>] *)
Inductive RenderResult := ROk | RErr (e : SurfaceError).

(** The clear colour of the render pass. *)
Definition clear_color : Color := {| r := 0.2; g := 0.2; b := 0.2; a := 1.0 |}.

(** [State::render]; [acquired] is what [surface.get_current_texture()]
    answers on this call. *)
Definition render (self : State) (acquired : SurfaceTexture + SurfaceError)
  : M RenderResult :=
  match acquired with
  | inr e => ret (RErr e)                       (* the [?] operator *)
  | inl output =>
      let view := create_view (st_texture output) in
      let encoder0 := create_command_encoder (Some "WGPU Render Command Encoder"%string) in
      let encoder1 :=
        begin_render_pass encoder0
          {| pass_label := Some "WGPU Render Pass"%string;
             color_attachments :=
               [Some {| att_view := view;
                        resolve_target := None;
                        ops := {| load := Clear clear_color; store := Store |} |}];
             depth_stencil_attachment := None |} in
      emit (ESubmit (queue self) [finish encoder1]) ;;;
      emit (EPresent (st_texture output)) ;;;
      ret ROk
  end.

(* ------------------------------------------------------------------ *)
(** ** [struct App] and [impl ApplicationHandler for App] *)

Record App := mkApp {
  window : option Window;
  state : option State;
  app_size : Size;
}.

(** [App::default] *)
Definition App_default : App :=
  {| window := None; state := None;
     app_size := Logical (mkLogicalSize 1280 720) |}.

Definition unwrap_msg : string := "called `Option::unwrap()` on a `None` value".

(** [ActiveEventLoop::create_window(attrs).expect(..)] *)
Definition create_window (env : Env) (attrs : WindowAttributes) : M Window :=
  w <- unwrap (env_window env) "An error occured while creating the window" ;;
  emit (ECreateWindow attrs) ;;;
  ret (mkWindow (fst w) (snd w) attrs).

(** [App::resumed] *)
Definition resumed (self : App) (env : Env) : M App :=
  let attrs := with_inner_size (app_size self)
                 (with_enabled_buttons WindowButtons_CLOSE
                    (with_resizable false
                       (with_title "[WGPU] Logic Game" default_attributes))) in
  window0 <- create_window env attrs ;;
  st <- State_new window0 env ;;
  ret {| window := Some window0; state := Some st; app_size := app_size self |}.

(** [App::about_to_wait] *)
Definition about_to_wait (self : App) : M App :=
  w <- unwrap (window self) unwrap_msg ;;
  emit (ERequestRedraw (win_id w)) ;;;
  ret self.

Definition set_state (self : App) (st : State) : App :=
  {| window := window self; state := Some st; app_size := app_size self |}.

(** The [match event { .. }] of [App::window_event] (default handling);
    [acquired] is the answer of [get_current_texture] should the event be
    a redraw request. *)
Definition default_handling (self1 : App) (st1 : State) (event : WindowEvent)
  (acquired : SurfaceTexture + SurfaceError) : M App :=
  match event with
  | CloseRequested
  | KeyboardInput _ (mkKeyEvent (Code Escape) Pressed _) _ =>
      emit EExit ;;; ret self1
  | Resized inner => st2 <- resize st1 inner ;; ret (set_state self1 st2)
  | RedrawRequested =>
      let st2 := update st1 in
      res <- render st2 acquired ;;
      match res with
      | ROk => emit (EPrint "RENDER") ;;; ret (set_state self1 st2)
      | RErr Lost =>
          st3 <- resize st2 (to_physical_1 (size st2)) ;;
          ret (set_state self1 st3)
      | RErr OutOfMemory => emit EExit ;;; ret (set_state self1 st2)
      | RErr e => emit (ELogError e) ;;; ret (set_state self1 st2)
      end
  | _ => ret self1
  end.

(** [App::window_event] *)
Definition window_event (self : App) (window_id : WindowId) (event : WindowEvent)
  (acquired : SurfaceTexture + SurfaceError) : M App :=
  w <- unwrap (window self) unwrap_msg ;;
  if negb (Nat.eqb window_id (win_id w)) then ret self else
  st <- unwrap (state self) unwrap_msg ;;
  let (handled, st1) := input st event in
  let self1 := set_state self st1 in
  if handled then ret self1 else
  default_handling self1 st1 event acquired.

(* ------------------------------------------------------------------ *)
(** ** Spec-side reading of the format selection *)

(** The first format of the list flagged as sRGB, scanning in order. *)
Fixpoint first_srgb (fs : list TextureFormat) : option TextureFormat :=
  match fs with
  | [] => None
  | f :: rest => if is_srgb f then Some f else first_srgb rest
  end.

(** "The first sRGB format, else the first listed format." *)
Definition spec_select (fs : list TextureFormat) : option TextureFormat :=
  match first_srgb fs with
  | Some f => Some f
  | None => hd_error fs
  end.

(** The effects that one call leaves, starting from an empty trace. *)
Definition emitted {A} (o : Outcome A) : list Effect :=
  match o with Done _ t => t | Panic _ => [] end.

Definition is_exit (e : Effect) : bool :=
  match e with EExit => true | _ => false end.

Definition is_present (e : Effect) : bool :=
  match e with EPresent _ => true | _ => false end.

(* ------------------------------------------------------------------ *)
(** ** Sanity checks on concrete inputs *)

Example select_ex1 :
  select_surface_format [Bgra8Unorm; Rgba16Float; Bgra8UnormSrgb; Rgba8UnormSrgb] []
  = Done Bgra8UnormSrgb [].
Proof. reflexivity. Qed.

Example select_ex2 : select_surface_format [Rgba16Float; Bgra8Unorm] [] = Done Rgba16Float [].
Proof. reflexivity. Qed.

Example select_ex3 : select_surface_format [] [] = Panic "index out of bounds".
Proof. reflexivity. Qed.

Example resize_ex_zero :
  forall st, resize st (mkPhysicalSize 0 600) [] = Done st [].
Proof. reflexivity. Qed.

(* ------------------------------------------------------------------ *)
(** ** Helper lemmas *)

Lemma filter_hd_first_srgb : forall fs, hd_error (filter is_srgb fs) = first_srgb fs.
Proof.
  induction fs as [|f rest IH]; simpl; [reflexivity|].
  destruct (is_srgb f); simpl; auto.
Qed.

Lemma first_srgb_nil_none : first_srgb [] = None.
Proof. reflexivity. Qed.

(* ------------------------------------------------------------------ *)
(** ** Format selection *)

(** C4: the selected format is the first sRGB-flagged format of the
    reported list, or the list's first element when none is flagged; the
    selection depends on the list only and has no effect. *)
Theorem select_surface_format_first_srgb :
  forall (fs : list TextureFormat) (tr : list Effect),
    select_surface_format fs tr =
    match spec_select fs with
    | Some f => Done f tr
    | None => Panic "index out of bounds"
    end.
Proof.
  intros fs tr. unfold select_surface_format, spec_select, bind, index, unwrap, ret, panic.
  rewrite filter_hd_first_srgb.
  destruct fs as [|f0 rest]; simpl; [reflexivity|].
  destruct (is_srgb f0); [reflexivity|].
  destruct (first_srgb rest); reflexivity.
Qed.

(** C10: with an empty reported format list, context creation panics on
    the out-of-range index [formats[0]] (it has no error result); the
    selection itself panics on the empty list. *)
Theorem State_new_empty_formats_panics :
  forall (window0 : Window) (ow : option (WindowId * PhysicalSize))
         (s : Surface) (ad : nat) (dq : Device * Queue)
         (pms : list PresentMode) (ams : list CompositeAlphaMode) (us : Z)
         (tr : list Effect),
    select_surface_format [] tr = Panic "index out of bounds" /\
    State_new window0 (mkEnv ow (Some s) (Some ad) (Some dq)
                         (mkSurfaceCapabilities [] pms ams us)) tr
    = Panic "index out of bounds".
Proof. intros; split; reflexivity. Qed.

(* ------------------------------------------------------------------ *)
(** ** Resize *)

(** C5: a size with a zero dimension leaves the state (cached size,
    configuration, every other field) unchanged and emits nothing: the
    surface is not reconfigured. *)
Theorem resize_zero_noop :
  forall (st : State) (s : PhysicalSize) (tr : list Effect),
    (width s = 0 \/ height s = 0)%Z ->
    resize st s tr = Done st tr.
Proof.
  intros st s tr Hz. unfold resize.
  assert (Hb : ((width s <=? 0) || (height s <=? 0))%Z = true).
  { apply orb_true_iff. destruct Hz as [H|H]; [left|right]; apply Z.leb_le; lia. }
  rewrite Hb. reflexivity.
Qed.

Lemma resize_zero_noop_witness :
  (width (mkPhysicalSize 0 720) = 0 \/ height (mkPhysicalSize 0 720) = 0)%Z /\
  resize (mkState (mkSurface 1) (mkDevice 2) (mkQueue 3)
            (mkSurfaceConfiguration TextureUsages_RENDER_ATTACHMENT Bgra8UnormSrgb
               1280 720 Fifo 2 Opaque [])
            (Physical (mkPhysicalSize 1280 720)))
         (mkPhysicalSize 0 720) []
  = Done (mkState (mkSurface 1) (mkDevice 2) (mkQueue 3)
            (mkSurfaceConfiguration TextureUsages_RENDER_ATTACHMENT Bgra8UnormSrgb
               1280 720 Fifo 2 Opaque [])
            (Physical (mkPhysicalSize 1280 720))) [].
Proof.
  split; [left; reflexivity|].
  apply resize_zero_noop. left; reflexivity.
Defined.

(** The configuration [resize] applies for a new size. *)
Definition resized_config (c : SurfaceConfiguration) (s : PhysicalSize) : SurfaceConfiguration :=
  {| usage := usage c; format := format c;
     cfg_width := width s; cfg_height := height s;
     present_mode := present_mode c;
     desired_maximum_frame_latency := desired_maximum_frame_latency c;
     alpha_mode := alpha_mode c; view_formats := view_formats c |}.

(** C6: a size with both dimensions positive becomes the cached size and
    the configuration's width and height, the configuration is applied to
    the surface once, and every other field of the configuration and of the
    state is unchanged. *)
Theorem resize_positive_updates :
  forall (st : State) (s : PhysicalSize) (tr : list Effect),
    (0 < width s)%Z -> (0 < height s)%Z ->
    resize st s tr =
    Done {| surface := surface st; device := device st; queue := queue st;
            config := {| usage := usage (config st); format := format (config st);
                         cfg_width := width s; cfg_height := height s;
                         present_mode := present_mode (config st);
                         desired_maximum_frame_latency :=
                           desired_maximum_frame_latency (config st);
                         alpha_mode := alpha_mode (config st);
                         view_formats := view_formats (config st) |};
            size := Physical s |}
         (tr ++ [EConfigure (surface st) (resized_config (config st) s)]).
Proof.
  intros st s tr Hw Hh. unfold resize.
  assert (Hb : ((width s <=? 0) || (height s <=? 0))%Z = false).
  { apply orb_false_iff; split; apply Z.leb_gt; lia. }
  rewrite Hb. reflexivity.
Qed.

Lemma resize_positive_updates_witness :
  exists st', (0 < width (mkPhysicalSize 800 600))%Z /\ (0 < height (mkPhysicalSize 800 600))%Z /\
  resize (mkState (mkSurface 1) (mkDevice 2) (mkQueue 3)
            (mkSurfaceConfiguration TextureUsages_RENDER_ATTACHMENT Bgra8UnormSrgb
               1280 720 Fifo 2 Opaque [])
            (Physical (mkPhysicalSize 1280 720)))
         (mkPhysicalSize 800 600) [] = st'.
Proof.
  eexists. split; [reflexivity|]. split; [reflexivity|].
  apply resize_positive_updates; reflexivity.
Defined.

(* ------------------------------------------------------------------ *)
(** ** Render *)

(** C7: a successful render records one command buffer holding one render
    pass whose only colour attachment is the view of the acquired texture,
    cleared to (0.2, 0.2, 0.2, 1.0) and stored; the buffer is submitted to
    the queue and then the texture is presented, exactly once. *)
Theorem render_success_submits_then_presents :
  forall (st : State) (out : SurfaceTexture) (tr : list Effect),
    render st (inl out) tr =
    Done ROk
      (tr ++ [ESubmit (queue st)
                [mkCommandBuffer
                   [{| pass_label := Some "WGPU Render Pass"%string;
                       color_attachments :=
                         [Some {| att_view := create_view (st_texture out);
                                  resolve_target := None;
                                  ops := {| load := Clear (mkColor 0.2 0.2 0.2 1.0);
                                            store := Store |} |}];
                       depth_stencil_attachment := None |}]];
              EPresent (st_texture out)])
    /\ List.length (filter is_present (emitted (render st (inl out) []))) = 1%nat.
Proof.
  intros st out tr; split; [|reflexivity].
  unfold render, bind, emit, ret. rewrite <- app_assoc. reflexivity.
Qed.

(** On the application's own window, [window_event] runs the default
    handling with the state it holds. *)
Lemma window_event_own_window :
  forall (w : Window) (st : State) (sz : Size) (ev : WindowEvent)
         (acq : SurfaceTexture + SurfaceError) (tr : list Effect),
    window_event (mkApp (Some w) (Some st) sz) (win_id w) ev acq tr =
    default_handling (mkApp (Some w) (Some st) sz) st ev acq tr.
Proof.
  intros w st sz ev acq tr. unfold window_event, bind, unwrap, ret.
  simpl. rewrite Nat.eqb_refl. reflexivity.
Qed.

(** Events addressed to another window are ignored. *)
Lemma window_event_other_window :
  forall (w : Window) (so : option State) (sz : Size) (wid : WindowId)
         (ev : WindowEvent) (acq : SurfaceTexture + SurfaceError) (tr : list Effect),
    wid <> win_id w ->
    window_event (mkApp (Some w) so sz) wid ev acq tr = Done (mkApp (Some w) so sz) tr.
Proof.
  intros w so sz wid ev acq tr Hne. unfold window_event, bind, unwrap, ret. simpl.
  apply Nat.eqb_neq in Hne. rewrite Hne. reflexivity.
Qed.

(** C9: the content-hook input function answers [false] and keeps the
    state, so [window_event] on the application's window always goes on to
    the default handling. *)
Theorem input_never_intercepts :
  (forall (st : State) (ev : WindowEvent), input st ev = (false, st)) /\
  (forall (w : Window) (st : State) (sz : Size) (ev : WindowEvent)
          (acq : SurfaceTexture + SurfaceError) (tr : list Effect),
     window_event (mkApp (Some w) (Some st) sz) (win_id w) ev acq tr =
     default_handling (mkApp (Some w) (Some st) sz) st ev acq tr).
Proof.
  split; [reflexivity|exact window_event_own_window].
Qed.

(* ------------------------------------------------------------------ *)
(** ** Redraw-tick error handling *)

(** C1: on a redraw request, a lost surface makes the handler call
    [resize] with the cached (last good) size, which reconfigures the
    surface when that size is non-zero, and presents nothing; running out
    of memory requests the event loop to exit; a time-out or an outdated
    surface is logged and the frame skipped. In every case the handler
    returns normally, with the error contained. *)
Theorem redraw_surface_errors_contained :
  forall (w : Window) (st : State) (sz : Size) (tr : list Effect),
    let app := mkApp (Some w) (Some st) sz in
    let last := to_physical_1 (size st) in
    (window_event app (win_id w) RedrawRequested (inr Lost) tr =
       bind (resize st last) (fun st' => ret (set_state app st')) tr /\
     exists app',
       window_event app (win_id w) RedrawRequested (inr Lost) tr =
       Done app' (tr ++ if ((width last <=? 0) || (height last <=? 0))%Z then []
                        else [EConfigure (surface st) (resized_config (config st) last)])) /\
    window_event app (win_id w) RedrawRequested (inr OutOfMemory) tr =
      Done app (tr ++ [EExit]) /\
    window_event app (win_id w) RedrawRequested (inr Timeout) tr =
      Done app (tr ++ [ELogError Timeout]) /\
    window_event app (win_id w) RedrawRequested (inr Outdated) tr =
      Done app (tr ++ [ELogError Outdated]).
Proof.
  intros w st sz tr app last.
  unfold app; rewrite !window_event_own_window.
  assert (Hlost : default_handling app st RedrawRequested (inr Lost) tr =
                  bind (resize st last) (fun st' => ret (set_state app st')) tr)
    by reflexivity.
  unfold app in Hlost |- *. rewrite Hlost.
  split; [split|].
  - reflexivity.
  - unfold bind, ret, resize, emit.
    destruct ((width last <=? 0) || (height last <=? 0))%Z.
    + eexists. rewrite app_nil_r. reflexivity.
    + eexists. reflexivity.
  - repeat split.
Qed.

(* ------------------------------------------------------------------ *)
(** ** Exit triggers *)

(** A concrete running application: window 7 at 1280x720, configured
    state. *)
Definition sample_window : Window :=
  mkWindow 7 (mkPhysicalSize 1280 720)
    (with_inner_size (Logical (mkLogicalSize 1280 720))
       (with_enabled_buttons WindowButtons_CLOSE
          (with_resizable false (with_title "[WGPU] Logic Game" default_attributes)))).

Definition sample_state : State :=
  mkState (mkSurface 1) (mkDevice 2) (mkQueue 3)
    (mkSurfaceConfiguration TextureUsages_RENDER_ATTACHMENT Bgra8UnormSrgb
       1280 720 Fifo 2 Opaque [])
    (Physical (mkPhysicalSize 1280 720)).

Definition sample_app : App :=
  mkApp (Some sample_window) (Some sample_state) (Logical (mkLogicalSize 1280 720)).

(** C2 (counterexample): an Escape key event in the pressed state with
    [repeat = true] makes [window_event] request the exit. *)
Lemma escape_repeat_exits :
  emitted (window_event sample_app 7
             (KeyboardInput 0 (mkKeyEvent (Code Escape) Pressed true) false)
             (inr Timeout) [])
  = [EExit].
Proof. reflexivity. Qed.

Lemma escape_released_no_exit_ex :
  emitted (window_event sample_app 7
             (KeyboardInput 0 (mkKeyEvent (Code Escape) Released false) false)
             (inr Timeout) [])
  = [].
Proof. reflexivity. Qed.

Lemma resize_emits_no_exit :
  forall st s tr st' tr', resize st s tr = Done st' tr' ->
    exists d, tr' = tr ++ d /\ existsb is_exit d = false.
Proof.
  intros st s tr st' tr'. unfold resize, bind, ret, emit.
  destruct ((width s <=? 0) || (height s <=? 0))%Z; intros H; inversion H; subst.
  - exists []. rewrite app_nil_r. auto.
  - eexists; split; reflexivity.
Qed.

(** C2 (amended): on the application's own window, the handler requests
    the exit exactly for a close request, for a keyboard event whose
    physical key is Escape in the pressed state (whatever its repeat flag),
    and for a redraw request whose surface acquisition fails with
    out-of-memory; events addressed to another window are ignored. *)
Theorem window_event_exit_triggers :
  forall (w : Window) (st : State) (sz : Size) (ev : WindowEvent)
         (acq : SurfaceTexture + SurfaceError),
    (existsb is_exit
       (emitted (window_event (mkApp (Some w) (Some st) sz) (win_id w) ev acq [])) = true
     <-> ev = CloseRequested
         \/ (exists d rep syn, ev = KeyboardInput d (mkKeyEvent (Code Escape) Pressed rep) syn)
         \/ (ev = RedrawRequested /\ acq = inr OutOfMemory)) /\
    (forall wid, wid <> win_id w ->
       emitted (window_event (mkApp (Some w) (Some st) sz) wid ev acq []) = []).
Proof.
  intros w st sz ev acq. split.
  2:{ intros wid Hne. rewrite window_event_other_window by exact Hne. reflexivity. }
  rewrite window_event_own_window.
  destruct ev as [| d [pk ks rep] syn | inner | | n].
  - simpl. split; auto.
  - destruct pk as [k|nat0]; [destruct k|]; destruct ks; simpl;
      split; intros H; try discriminate;
      try (right; left; do 3 eexists; reflexivity);
      try reflexivity;
      destruct H as [H|[[? [? [? H]]]|[H _]]]; discriminate.
  - unfold default_handling, bind, ret.
    destruct (resize st inner []) as [st' tr'|m] eqn:E.
    + apply resize_emits_no_exit in E. destruct E as [dd [-> Hd]].
      simpl. rewrite Hd. split; intros H; [discriminate|].
      destruct H as [H|[[? [? [? H]]]|[H _]]]; discriminate.
    + simpl. split; intros H; [discriminate|].
      destruct H as [H|[[? [? [? H]]]|[H _]]]; discriminate.
  - destruct acq as [out|e]; [|destruct e].
    + simpl. split; intros H; [discriminate|].
      destruct H as [H|[[? [? [? H]]]|[_ H]]]; discriminate.
    + simpl. split; intros H; [discriminate|].
      destruct H as [H|[[? [? [? H]]]|[_ H]]]; discriminate.
    + simpl. split; intros H; [discriminate|].
      destruct H as [H|[[? [? [? H]]]|[_ H]]]; discriminate.
    + assert (Hl : default_handling (mkApp (Some w) (Some st) sz) st RedrawRequested
                       (inr Lost) [] =
                     bind (resize st (to_physical_1 (size st)))
                       (fun st' => ret (set_state (mkApp (Some w) (Some st) sz) st')) [])
        by reflexivity.
      rewrite Hl. unfold bind, ret.
      destruct (resize st (to_physical_1 (size st)) []) as [st' tr'|m] eqn:E.
      * apply resize_emits_no_exit in E. destruct E as [dd [-> Hd]].
        simpl. rewrite Hd. split; intros H; [discriminate|].
        destruct H as [H|[[? [? [? H]]]|[_ H]]]; discriminate.
      * simpl. split; intros H; [discriminate|].
        destruct H as [H|[[? [? [? H]]]|[_ H]]]; discriminate.
    + simpl. split; auto.
  - simpl. split; intros H; [discriminate|].
    destruct H as [H|[[? [? [? H]]]|[H _]]]; discriminate.
Qed.

(* ------------------------------------------------------------------ *)
(** ** Context creation *)

Definition sample_env : Env :=
  mkEnv (Some (7, mkPhysicalSize 1280 720)) (Some (mkSurface 1)) (Some 0)
    (Some (mkDevice 2, mkQueue 3))
    (mkSurfaceCapabilities [Bgra8Unorm; Bgra8UnormSrgb] [Fifo; Mailbox] [Opaque; PreMultiplied]
       TextureUsages_RENDER_ATTACHMENT).

(** What [State::new] returns when it does not panic: no effect, and the
    configuration built from the window size, the selected format, FIFO,
    the first alpha mode and a frame latency of 2. *)
Lemma State_new_result :
  forall (window0 : Window) (env : Env) (tr : list Effect) (st : State) (tr' : list Effect),
    State_new window0 env tr = Done st tr' ->
    tr' = tr /\
    (forall s c, ~ In (EConfigure s c) (skipn (List.length tr) tr')) /\
    exists f am,
      spec_select (formats (env_caps env)) = Some f /\
      hd_error (alpha_modes (env_caps env)) = Some am /\
      config st = {| usage := TextureUsages_RENDER_ATTACHMENT; format := f;
                     cfg_width := width (win_inner_size window0);
                     cfg_height := height (win_inner_size window0);
                     present_mode := Fifo; desired_maximum_frame_latency := 2;
                     alpha_mode := am; view_formats := [] |}.
Proof.
  intros window0 env tr st tr' H.
  unfold State_new, select_surface_format, index, bind, unwrap, ret, panic in H.
  destruct (env_surface env) as [s0|]; [|discriminate].
  destruct (env_adapter env) as [ad|]; [|discriminate].
  destruct (env_device env) as [dq|]; [|discriminate].
  unfold spec_select. rewrite <- filter_hd_first_srgb.
  destruct (formats (env_caps env)) as [|f0 rest] eqn:Ef; [discriminate|].
  destruct (alpha_modes (env_caps env)) as [|am rest'] eqn:Ea; [discriminate|].
  destruct (hd_error (filter is_srgb (f0 :: rest))) as [f|] eqn:Eh;
    simpl in H; injection H as <- <-;
    (split; [reflexivity|]); (split; [rewrite skipn_all; intros s c []|]).
  - exists f, am. repeat split.
  - exists f0, am. repeat split.
Qed.

(** C3: [State::new] builds the configuration from the window size, the
    selected format, FIFO, the first alpha mode and a frame latency of 2,
    but emits no effect at all: the surface is never configured by it. *)
Theorem State_new_builds_but_never_configures :
  forall (window0 : Window) (env : Env) (tr : list Effect) (st : State) (tr' : list Effect),
    State_new window0 env tr = Done st tr' ->
    tr' = tr /\
    (forall s c, ~ In (EConfigure s c) (skipn (List.length tr) tr')) /\
    exists f am,
      spec_select (formats (env_caps env)) = Some f /\
      hd_error (alpha_modes (env_caps env)) = Some am /\
      config st = {| usage := TextureUsages_RENDER_ATTACHMENT; format := f;
                     cfg_width := width (win_inner_size window0);
                     cfg_height := height (win_inner_size window0);
                     present_mode := Fifo; desired_maximum_frame_latency := 2;
                     alpha_mode := am; view_formats := [] |}.
Proof. exact State_new_result. Qed.

Lemma State_new_builds_but_never_configures_witness :
  exists st, State_new sample_window sample_env [] = Done st [] /\
  [] = @nil Effect /\
  (forall s c, ~ In (EConfigure s c) (skipn (List.length (@nil Effect)) [])) /\
  exists f am,
    spec_select (formats (env_caps sample_env)) = Some f /\
    hd_error (alpha_modes (env_caps sample_env)) = Some am /\
    config st = {| usage := TextureUsages_RENDER_ATTACHMENT; format := f;
                   cfg_width := width (win_inner_size sample_window);
                   cfg_height := height (win_inner_size sample_window);
                   present_mode := Fifo; desired_maximum_frame_latency := 2;
                   alpha_mode := am; view_formats := [] |}.
Proof.
  eexists. split; [reflexivity|].
  apply (State_new_builds_but_never_configures sample_window sample_env [] _ []).
  reflexivity.
Defined.

(* ------------------------------------------------------------------ *)
(** ** Window creation *)

(** The window attributes [App::resumed] asks for. *)
Definition expected_attrs : WindowAttributes :=
  {| title := "[WGPU] Logic Game"; resizable := false;
     enabled_buttons := WindowButtons_CLOSE;
     inner_size := Some (Logical (mkLogicalSize 1280 720)) |}.

(** C8: from the default application size, [resumed] creates the window
    with the title "[WGPU] Logic Game", not resizable, with only the close
    button enabled and a logical inner size of 1280x720; that window
    creation is the first effect, and the window is stored in the app. *)
Theorem resumed_window_attributes :
  forall (wo : option Window) (so : option State) (env : Env) (app' : App) (tr' : list Effect),
    resumed (mkApp wo so (app_size App_default)) env [] = Done app' tr' ->
    hd_error tr' = Some (ECreateWindow expected_attrs) /\
    exists w, window app' = Some w /\ win_attrs w = expected_attrs /\
      title expected_attrs = "[WGPU] Logic Game"%string /\
      resizable expected_attrs = false /\
      enabled_buttons expected_attrs = WindowButtons_CLOSE /\
      Z.land (enabled_buttons expected_attrs)
             (Z.lor WindowButtons_MINIMIZE WindowButtons_MAXIMIZE) = 0%Z /\
      inner_size expected_attrs = Some (Logical (mkLogicalSize 1280 720)).
Proof.
  intros wo so env app' tr' H.
  unfold resumed, create_window, bind, unwrap, ret, panic, emit in H.
  destruct (env_window env) as [[wid wsz]|]; [|discriminate].
  simpl in H.
  destruct (State_new _ env [ECreateWindow _]) as [st tr1|m] eqn:E; [|discriminate].
  apply State_new_result in E. destruct E as [-> _].
  injection H as <- <-.
  split; [reflexivity|].
  eexists; repeat split.
Qed.

Lemma resumed_window_attributes_witness :
  exists app' tr',
    resumed App_default sample_env [] = Done app' tr' /\
    hd_error tr' = Some (ECreateWindow expected_attrs) /\
    exists w, window app' = Some w /\ win_attrs w = expected_attrs /\
      title expected_attrs = "[WGPU] Logic Game"%string /\
      resizable expected_attrs = false /\
      enabled_buttons expected_attrs = WindowButtons_CLOSE /\
      Z.land (enabled_buttons expected_attrs)
             (Z.lor WindowButtons_MINIMIZE WindowButtons_MAXIMIZE) = 0%Z /\
      inner_size expected_attrs = Some (Logical (mkLogicalSize 1280 720)).
Proof.
  do 2 eexists. split; [reflexivity|].
  apply (resumed_window_attributes None None sample_env). reflexivity.
Defined.

(* ------------------------------------------------------------------ *)
(** ** Further properties of the host and the context *)

(** The surface configuration's width and height equal the cached size. *)
Definition config_matches_size (st : State) : Prop :=
  cfg_width (config st) = width (to_physical_1 (size st)) /\
  cfg_height (config st) = height (to_physical_1 (size st)).

Lemma resize_result :
  forall st s tr st' tr', resize st s tr = Done st' tr' ->
    (st' = st /\ tr' = tr) \/
    ((0 < width s)%Z /\ (0 < height s)%Z /\
     st' = {| surface := surface st; device := device st; queue := queue st;
              config := resized_config (config st) s; size := Physical s |} /\
     tr' = tr ++ [EConfigure (surface st) (resized_config (config st) s)]).
Proof.
  intros st s tr st' tr'. unfold resize, bind, ret, emit.
  destruct ((width s <=? 0) || (height s <=? 0))%Z eqn:E; intros H; inversion H; subst.
  - left; auto.
  - right. apply orb_false_iff in E as [E1 E2].
    apply Z.leb_gt in E1, E2. repeat split; auto.
Qed.

(** The effect of one [window_event] on the application's own window: the
    state it leaves is the one it held, or a [resize] of it. *)
Lemma default_handling_result :
  forall app st ev acq tr app' tr',
    default_handling app st ev acq tr = Done app' tr' ->
    window app' = window app /\ app_size app' = app_size app /\
    ((state app' = Some st \/ app' = app) \/
     exists s st', resize st s tr = Done st' tr' /\ state app' = Some st').
Proof.
  intros app st ev acq tr app' tr' H.
  destruct ev as [| d [pk ks rep] syn | inner | | n].
  - inversion H; subst. auto.
  - destruct pk as [[]|]; destruct ks; simpl in H; inversion H; subst; simpl; auto.
  - unfold default_handling, bind, ret in H.
    destruct (resize st inner tr) as [st2 tr2|m] eqn:Er; [|discriminate].
    inversion H; subst. simpl. split; [|split]; auto.
    right. exists inner, st2. auto.
  - destruct acq as [out|[]].
    + simpl in H. inversion H; subst. simpl. auto.
    + simpl in H. inversion H; subst. simpl. auto.
    + simpl in H. inversion H; subst. simpl. auto.
    + assert (Hl : default_handling app st RedrawRequested (inr Lost) tr =
                   bind (resize st (to_physical_1 (size st)))
                     (fun st' => ret (set_state app st')) tr) by reflexivity.
      rewrite Hl in H. unfold bind, ret in H.
      destruct (resize st (to_physical_1 (size st)) tr) as [st2 tr2|m] eqn:Er;
        [|discriminate].
      inversion H; subst. simpl. split; [|split]; auto.
      right. exists (to_physical_1 (size st)), st2. auto.
    + simpl in H. inversion H; subst. simpl. auto.
  - inversion H; subst. auto.
Qed.

Lemma resize_keeps_invariant :
  forall st s tr st' tr', config_matches_size st ->
    resize st s tr = Done st' tr' -> config_matches_size st'.
Proof.
  intros st s tr st' tr' Hinv H.
  apply resize_result in H as [[-> _]|[_ [_ [-> _]]]]; auto.
  unfold config_matches_size; simpl; auto.
Qed.

(** Case split of [default_handling] over every event, key, acquisition
    outcome and resize guard, in the goal. *)
Ltac handler_paths :=
  unfold default_handling, render, resize, update, bind, ret, emit;
  repeat match goal with
  | |- context [match ?ev with CloseRequested => _ | _ => _ end] => destruct ev
  | |- context [match ?k with mkKeyEvent _ _ _ => _ end] => destruct k
  | |- context [match ?p with Code _ => _ | Unidentified _ => _ end] => destruct p
  | |- context [match ?k with Escape => _ | _ => _ end] => destruct k
  | |- context [match ?s with Pressed => _ | Released => _ end] => destruct s
  | |- context [match ?x with inl _ => _ | inr _ => _ end] => destruct x
  | |- context [match ?e with Timeout => _ | _ => _ end] => destruct e
  | |- context [if ?c then _ else _] => let E := fresh "E" in destruct c eqn:E
  end; simpl.

(** X: every surface configuration the handler applies, on any event, has
    a positive width and height and targets the state's own surface. *)
Theorem window_event_configures_positive_only :
  forall (w : Window) (st : State) (sz : Size) (wid : WindowId) (ev : WindowEvent)
         (acq : SurfaceTexture + SurfaceError) (s : Surface) (c : SurfaceConfiguration),
    In (EConfigure s c)
       (emitted (window_event (mkApp (Some w) (Some st) sz) wid ev acq [])) ->
    (0 < cfg_width c)%Z /\ (0 < cfg_height c)%Z /\ s = surface st.
Proof.
  intros w st sz wid ev acq s c.
  destruct (Nat.eqb wid (win_id w)) eqn:Ew.
  2:{ apply Nat.eqb_neq in Ew. rewrite window_event_other_window by exact Ew.
      simpl. intros []. }
  apply Nat.eqb_eq in Ew. subst wid. rewrite window_event_own_window.
  handler_paths;
    try (intros H; repeat destruct H as [H|H]; try discriminate; contradiction);
    match goal with
    | E : ((?x <=? 0) || (?y <=? 0))%Z = false |- _ =>
        apply orb_false_iff in E as [E1 E2]; apply Z.leb_gt in E1, E2
    | _ => idtac
    end;
    intros [H|[]]; inversion H; subst; simpl; auto.
Qed.

Lemma window_event_configures_positive_only_witness :
  In (EConfigure (mkSurface 1) (resized_config (config sample_state) (mkPhysicalSize 800 600)))
     (emitted (window_event sample_app 7 (Resized (mkPhysicalSize 800 600)) (inr Timeout) [])) /\
  (0 < cfg_width (resized_config (config sample_state) (mkPhysicalSize 800 600)))%Z /\
  (0 < cfg_height (resized_config (config sample_state) (mkPhysicalSize 800 600)))%Z /\
  mkSurface 1 = surface sample_state.
Proof.
  split; [simpl; left; reflexivity|].
  apply (window_event_configures_positive_only sample_window sample_state
           (Logical (mkLogicalSize 1280 720)) 7 (Resized (mkPhysicalSize 800 600)) (inr Timeout)).
  simpl; left; reflexivity.
Defined.

(** X: the handler submits command buffers or presents a texture only on a
    redraw request of its own window whose texture acquisition succeeded,
    and then presents exactly the acquired texture. *)
Theorem window_event_presents_only_acquired :
  forall (w : Window) (st : State) (sz : Size) (wid : WindowId) (ev : WindowEvent)
         (acq : SurfaceTexture + SurfaceError) (e : Effect),
    In e (emitted (window_event (mkApp (Some w) (Some st) sz) wid ev acq [])) ->
    (forall t, e = EPresent t ->
       wid = win_id w /\ ev = RedrawRequested /\ acq = inl (mkSurfaceTexture t)) /\
    (forall q bufs, e = ESubmit q bufs ->
       wid = win_id w /\ ev = RedrawRequested /\ q = queue st /\
       exists out, acq = inl out).
Proof.
  intros w st sz wid ev acq e.
  destruct (Nat.eqb wid (win_id w)) eqn:Ew.
  2:{ apply Nat.eqb_neq in Ew. rewrite window_event_other_window by exact Ew.
      simpl. intros []. }
  apply Nat.eqb_eq in Ew. subst wid. rewrite window_event_own_window.
  handler_paths;
    intros H; repeat destruct H as [H|H]; subst; try contradiction;
    split; intros; try discriminate;
    match goal with
    | H : EPresent _ = EPresent _ |- _ => inversion H; subst
    | H : ESubmit _ _ = ESubmit _ _ |- _ => inversion H; subst
    end;
    repeat split; eauto;
    match goal with |- inl ?o = inl _ => destruct o; reflexivity end.
Qed.

Lemma window_event_presents_only_acquired_witness :
  In (EPresent (mkTexture 9 1280 720))
     (emitted (window_event sample_app 7 RedrawRequested
                 (inl (mkSurfaceTexture (mkTexture 9 1280 720))) [])) /\
  ((forall t, EPresent (mkTexture 9 1280 720) = EPresent t ->
      7 = win_id sample_window /\ RedrawRequested = RedrawRequested /\
      @inl SurfaceTexture SurfaceError (mkSurfaceTexture (mkTexture 9 1280 720))
      = inl (mkSurfaceTexture t)) /\
   (forall q bufs, EPresent (mkTexture 9 1280 720) = ESubmit q bufs ->
      7 = win_id sample_window /\ RedrawRequested = RedrawRequested /\ q = queue sample_state /\
      exists out, @inl SurfaceTexture SurfaceError (mkSurfaceTexture (mkTexture 9 1280 720))
                  = inl out)).
Proof.
  split; [simpl; right; left; reflexivity|].
  apply (window_event_presents_only_acquired sample_window sample_state
           (Logical (mkLogicalSize 1280 720)) 7 RedrawRequested).
  simpl; right; left; reflexivity.
Defined.

(** X: [window_event] keeps the window, the application size and the
    GPU handles (surface, device, queue) of the state, and keeps the
    configuration's width and height equal to the cached size. *)
Theorem window_event_preserves_invariant :
  forall (w : Window) (st : State) (sz : Size) (wid : WindowId) (ev : WindowEvent)
         (acq : SurfaceTexture + SurfaceError) (tr : list Effect) (app' : App) (tr' : list Effect),
    config_matches_size st ->
    window_event (mkApp (Some w) (Some st) sz) wid ev acq tr = Done app' tr' ->
    window app' = Some w /\ app_size app' = sz /\
    exists st', state app' = Some st' /\ config_matches_size st' /\
      surface st' = surface st /\ device st' = device st /\ queue st' = queue st.
Proof.
  intros w st sz wid ev acq tr app' tr' Hinv H.
  destruct (Nat.eqb wid (win_id w)) eqn:Ew.
  2:{ apply Nat.eqb_neq in Ew. rewrite window_event_other_window in H by exact Ew.
      inversion H; subst. simpl. repeat split; auto. exists st; auto. }
  apply Nat.eqb_eq in Ew. subst wid. rewrite window_event_own_window in H.
  apply default_handling_result in H as [Hw [Hs Hcase]]. simpl in Hw, Hs.
  split; [exact Hw|split; [exact Hs|]].
  destruct Hcase as [[Hst | Happ]|[s [st' [Hr Hst]]]].
  - exists st. auto.
  - subst app'. exists st. simpl. auto.
  - exists st'. split; [exact Hst|]. split; [eapply resize_keeps_invariant; eauto|].
    apply resize_result in Hr as [[-> _]|[_ [_ [-> _]]]]; auto.
Qed.

Lemma window_event_preserves_invariant_witness :
  config_matches_size sample_state /\
  exists app',
    window_event sample_app 7 (Resized (mkPhysicalSize 800 600)) (inr Timeout) [] =
      Done app' [EConfigure (mkSurface 1)
                   (resized_config (config sample_state) (mkPhysicalSize 800 600))] /\
    window app' = Some sample_window /\ app_size app' = Logical (mkLogicalSize 1280 720) /\
    exists st', state app' = Some st' /\ config_matches_size st' /\
      surface st' = surface sample_state /\ device st' = device sample_state /\
      queue st' = queue sample_state.
Proof.
  assert (Hi : config_matches_size sample_state) by (split; reflexivity).
  split; [exact Hi|]. eexists. split; [vm_compute; reflexivity|].
  apply (window_event_preserves_invariant sample_window sample_state
           (Logical (mkLogicalSize 1280 720)) 7 (Resized (mkPhysicalSize 800 600))
           (inr Timeout) [] _
           [EConfigure (mkSurface 1)
              (resized_config (config sample_state) (mkPhysicalSize 800 600))]);
    [exact Hi|].
  reflexivity.
Defined.

(** X: a successful [resumed] stores the created window and a state whose
    cached size is the window's physical inner size and whose configuration
    has that width and height; its only effect is the window creation. *)
Theorem resumed_establishes_invariant :
  forall (app : App) (env : Env) (tr : list Effect) (app' : App) (tr' : list Effect),
    resumed app env tr = Done app' tr' ->
    exists w st, window app' = Some w /\ state app' = Some st /\
      app_size app' = app_size app /\
      size st = Physical (win_inner_size w) /\ config_matches_size st /\
      tr' = tr ++ [ECreateWindow (win_attrs w)].
Proof.
  intros app env tr app' tr' H.
  unfold resumed, create_window, bind, unwrap, ret, panic, emit in H.
  destruct (env_window env) as [[wid wsz]|]; [|discriminate].
  simpl in H.
  match type of H with
  | match State_new ?w0 ?e0 ?t0 with _ => _ end = _ =>
      destruct (State_new w0 e0 t0) as [st tr1|m] eqn:E; [|discriminate]
  end.
  pose proof E as E'. apply State_new_result in E' as [-> [_ [f [am [_ [_ Hc]]]]]].
  injection H as <- <-.
  assert (Hsz : size st = Physical wsz).
  { unfold State_new, bind, unwrap, ret, select_surface_format, index in E.
    destruct (env_surface env); [|discriminate].
    destruct (env_adapter env); [|discriminate].
    destruct (env_device env); [|discriminate].
    destruct (formats (env_caps env)); [discriminate|].
    destruct (alpha_modes (env_caps env)); [discriminate|].
    simpl in E. injection E as <-. reflexivity. }
  eexists _, st. simpl. split; [reflexivity|]. split; [reflexivity|].
  split; [reflexivity|]. split; [exact Hsz|].
  split; [|reflexivity].
  unfold config_matches_size. rewrite Hc, Hsz. simpl. auto.
Qed.

Lemma resumed_establishes_invariant_witness :
  exists app' tr',
    resumed App_default sample_env [] = Done app' tr' /\
    exists w st, window app' = Some w /\ state app' = Some st /\
      app_size app' = app_size App_default /\
      size st = Physical (win_inner_size w) /\ config_matches_size st /\
      tr' = [] ++ [ECreateWindow (win_attrs w)].
Proof.
  do 2 eexists. split; [reflexivity|].
  apply (resumed_establishes_invariant App_default sample_env []). reflexivity.
Defined.

(** X: context creation succeeds exactly when a surface, an adapter and a
    device are obtained and the reported format and alpha-mode lists are
    both non-empty; otherwise it panics. *)
Theorem State_new_succeeds_iff :
  forall (window0 : Window) (env : Env) (tr : list Effect),
    (exists st tr', State_new window0 env tr = Done st tr') <->
    env_surface env <> None /\ env_adapter env <> None /\ env_device env <> None /\
    formats (env_caps env) <> [] /\ alpha_modes (env_caps env) <> [].
Proof.
  intros window0 env tr.
  unfold State_new, select_surface_format, index, bind, unwrap, ret, panic.
  destruct (env_surface env); [|split; [intros [? [? H]]; discriminate|intros [H _]; congruence]].
  destruct (env_adapter env); [|split; [intros [? [? H]]; discriminate|intros [_ [H _]]; congruence]].
  destruct (env_device env);
    [|split; [intros [? [? H]]; discriminate|intros [_ [_ [H _]]]; congruence]].
  destruct (formats (env_caps env)) as [|f0 rest];
    [split; [intros [? [? H]]; discriminate|intros [_ [_ [_ [H _]]]]; congruence]|].
  destruct (alpha_modes (env_caps env)) as [|am rest'];
    [split; [intros [? [? H]]; discriminate|intros [_ [_ [_ [_ H]]]]; congruence]|].
  split; intros _; [repeat split; discriminate|].
  simpl. do 2 eexists. reflexivity.
Qed.

(** X: the configured format is one of the reported formats, and it is an
    sRGB format as soon as the list reports any; the alpha mode is one of
    the reported alpha modes. *)
Theorem State_new_format_reported :
  forall (window0 : Window) (env : Env) (tr : list Effect) (st : State) (tr' : list Effect),
    State_new window0 env tr = Done st tr' ->
    In (format (config st)) (formats (env_caps env)) /\
    (existsb is_srgb (formats (env_caps env)) = true -> is_srgb (format (config st)) = true) /\
    In (alpha_mode (config st)) (alpha_modes (env_caps env)).
Proof.
  intros window0 env tr st tr' H.
  apply State_new_result in H as [_ [_ [f [am [Hf [Ha Hc]]]]]].
  rewrite Hc. simpl.
  destruct (alpha_modes (env_caps env)) as [|am0 ams]; [discriminate|].
  injection Ha as <-. split; [|split; [|left; reflexivity]].
  - unfold spec_select in Hf.
    destruct (first_srgb (formats (env_caps env))) as [f1|] eqn:E1.
    + injection Hf as <-. clear -E1. revert E1.
      induction (formats (env_caps env)) as [|x xs IH]; simpl; [discriminate|].
      destruct (is_srgb x); [intros [= ->]; left; reflexivity|intros E; right; auto].
    + destruct (formats (env_caps env)); [discriminate|]. injection Hf as <-. left; reflexivity.
  - intros Hex. unfold spec_select in Hf.
    destruct (first_srgb (formats (env_caps env))) as [f1|] eqn:E1.
    + injection Hf as <-. clear -E1. revert E1.
      induction (formats (env_caps env)) as [|x xs IH]; simpl; [discriminate|].
      destruct (is_srgb x) eqn:Ex; [intros [= <-]; exact Ex|exact IH].
    + exfalso. clear -E1 Hex. revert E1 Hex.
      induction (formats (env_caps env)) as [|x xs IH]; simpl; [discriminate|].
      destruct (is_srgb x); [discriminate|simpl; exact IH].
Qed.

Lemma State_new_format_reported_witness :
  exists st,
    State_new sample_window sample_env [] = Done st [] /\
    In (format (config st)) (formats (env_caps sample_env)) /\
    (existsb is_srgb (formats (env_caps sample_env)) = true -> is_srgb (format (config st)) = true) /\
    In (alpha_mode (config st)) (alpha_modes (env_caps sample_env)).
Proof.
  eexists. split; [vm_compute; reflexivity|].
  apply (State_new_format_reported sample_window sample_env [] _ []). vm_compute. reflexivity.
Defined.

Lemma resized_config_same :
  forall c s, cfg_width c = width s -> cfg_height c = height s -> resized_config c s = c.
Proof.
  intros [u f w h pm l am vf] [sw sh]; simpl; intros -> ->. reflexivity.
Qed.

(** X: when the configuration matches the cached size and that size is
    non-zero, a lost surface on a redraw re-applies the current
    configuration unchanged: the only effect is configuring the state's
    surface with exactly its configuration. *)
Theorem redraw_lost_reapplies_config :
  forall (w : Window) (st : State) (sz : Size) (tr : list Effect),
    config_matches_size st ->
    (0 < cfg_width (config st))%Z -> (0 < cfg_height (config st))%Z ->
    window_event (mkApp (Some w) (Some st) sz) (win_id w) RedrawRequested (inr Lost) tr =
    Done (mkApp (Some w)
            (Some {| surface := surface st; device := device st; queue := queue st;
                     config := config st; size := Physical (to_physical_1 (size st)) |}) sz)
         (tr ++ [EConfigure (surface st) (config st)]).
Proof.
  intros w st sz tr [Hw Hh] Hpw Hph.
  rewrite window_event_own_window.
  assert (Hl : default_handling (mkApp (Some w) (Some st) sz) st RedrawRequested (inr Lost) tr =
               bind (resize st (to_physical_1 (size st)))
                 (fun st' => ret (set_state (mkApp (Some w) (Some st) sz) st')) tr)
    by reflexivity.
  rewrite Hl. unfold bind, ret, resize, emit.
  assert (Hb : ((width (to_physical_1 (size st)) <=? 0) ||
                (height (to_physical_1 (size st)) <=? 0))%Z = false).
  { apply orb_false_iff; split; apply Z.leb_gt; lia. }
  rewrite Hb. simpl. unfold resized_config.
  destruct st as [s0 d0 q0 [u f cw ch pm l am vf] sz0]; simpl in *.
  rewrite <- Hw, <- Hh. reflexivity.
Qed.

Lemma redraw_lost_reapplies_config_witness :
  config_matches_size sample_state /\
  (0 < cfg_width (config sample_state))%Z /\ (0 < cfg_height (config sample_state))%Z /\
  window_event sample_app 7 RedrawRequested (inr Lost) [] =
  Done (mkApp (Some sample_window)
          (Some {| surface := surface sample_state; device := device sample_state;
                   queue := queue sample_state; config := config sample_state;
                   size := Physical (to_physical_1 (size sample_state)) |})
          (Logical (mkLogicalSize 1280 720)))
       ([] ++ [EConfigure (surface sample_state) (config sample_state)]).
Proof.
  assert (Hi : config_matches_size sample_state) by (split; reflexivity).
  split; [exact Hi|]. split; [reflexivity|]. split; [reflexivity|].
  apply (redraw_lost_reapplies_config sample_window sample_state
           (Logical (mkLogicalSize 1280 720)) []); [exact Hi|reflexivity|reflexivity].
Defined.

(** X: two resizes to non-zero sizes in a row leave the same state as the
    second one alone, and configure the surface twice, first with the
    first size and then with the second. *)
Theorem resize_resize_last_wins :
  forall (st : State) (s1 s2 : PhysicalSize) (tr : list Effect),
    (0 < width s1)%Z -> (0 < height s1)%Z -> (0 < width s2)%Z -> (0 < height s2)%Z ->
    exists st2,
      resize st s2 tr = Done st2 (tr ++ [EConfigure (surface st) (resized_config (config st) s2)]) /\
      bind (resize st s1) (fun st1 => resize st1 s2) tr =
      Done st2 (tr ++ [EConfigure (surface st) (resized_config (config st) s1);
                       EConfigure (surface st) (resized_config (config st) s2)]).
Proof.
  intros st s1 s2 tr H1 H2 H3 H4.
  assert (Hb : forall s, (0 < width s)%Z -> (0 < height s)%Z ->
                ((width s <=? 0) || (height s <=? 0))%Z = false).
  { intros s Ha Hc. apply orb_false_iff; split; apply Z.leb_gt; lia. }
  eexists. unfold bind, resize, ret, emit.
  rewrite (Hb s1 H1 H2), (Hb s2 H3 H4). simpl.
  split; [reflexivity|]. unfold bind, emit. rewrite <- app_assoc. reflexivity.
Qed.

Lemma resize_resize_last_wins_witness :
  exists st2,
    resize sample_state (mkPhysicalSize 640 480) [] =
      Done st2 ([] ++ [EConfigure (surface sample_state)
                        (resized_config (config sample_state) (mkPhysicalSize 640 480))]) /\
    bind (resize sample_state (mkPhysicalSize 800 600))
         (fun st1 => resize st1 (mkPhysicalSize 640 480)) [] =
    Done st2 ([] ++ [EConfigure (surface sample_state)
                      (resized_config (config sample_state) (mkPhysicalSize 800 600));
                     EConfigure (surface sample_state)
                      (resized_config (config sample_state) (mkPhysicalSize 640 480))]).
Proof.
  apply resize_resize_last_wins; reflexivity.
Defined.

(** X: before [resumed] has created the window ([App::default]), both
    [about_to_wait] and [window_event] panic on the [unwrap] of the missing
    window; with a window but no state, an event for that window panics on the
    state's [unwrap], while an event for another window is ignored without
    effect. *)
Theorem handlers_before_resumed_panic :
  (about_to_wait App_default [] = Panic unwrap_msg) /\
  (forall wid ev acq tr, window_event App_default wid ev acq tr = Panic unwrap_msg) /\
  (forall w sz ev acq tr,
     window_event (mkApp (Some w) None sz) (win_id w) ev acq tr = Panic unwrap_msg) /\
  (forall w sz wid ev acq tr, wid <> win_id w ->
     window_event (mkApp (Some w) None sz) wid ev acq tr = Done (mkApp (Some w) None sz) tr).
Proof.
  split; [reflexivity|]. split; [reflexivity|]. split.
  - intros w sz ev acq tr. unfold window_event, bind, unwrap, ret, panic. simpl.
    rewrite Nat.eqb_refl. reflexivity.
  - intros w sz wid ev acq tr Hne. unfold window_event, bind, unwrap, ret. simpl.
    apply Nat.eqb_neq in Hne. rewrite Hne. reflexivity.
Qed.

(** X: a redraw request with a successfully acquired texture leaves the
    application unchanged and emits, in this order, the submission of the
    one recorded command buffer, the presentation of the texture and the
    "RENDER" line. *)
Theorem redraw_success_trace :
  forall (w : Window) (st : State) (sz : Size) (out : SurfaceTexture) (tr : list Effect),
    window_event (mkApp (Some w) (Some st) sz) (win_id w) RedrawRequested (inl out) tr =
    Done (mkApp (Some w) (Some st) sz)
      (tr ++ [ESubmit (queue st)
                [finish (begin_render_pass
                   (create_command_encoder (Some "WGPU Render Command Encoder"%string))
                   {| pass_label := Some "WGPU Render Pass"%string;
                      color_attachments :=
                        [Some {| att_view := create_view (st_texture out);
                                 resolve_target := None;
                                 ops := {| load := Clear clear_color; store := Store |} |}];
                      depth_stencil_attachment := None |})];
              EPresent (st_texture out);
              EPrint "RENDER"]).
Proof.
  intros w st sz out tr. rewrite window_event_own_window.
  unfold default_handling, render, update, bind, ret, emit.
  rewrite <- !app_assoc. reflexivity.
Qed.

(** X: one call of the handler requests the exit at most once and presents
    at most one texture. *)
Theorem window_event_at_most_one_exit_and_present :
  forall (w : Window) (st : State) (sz : Size) (wid : WindowId) (ev : WindowEvent)
         (acq : SurfaceTexture + SurfaceError),
    (List.length (filter is_exit
       (emitted (window_event (mkApp (Some w) (Some st) sz) wid ev acq []))) <= 1)%nat /\
    (List.length (filter is_present
       (emitted (window_event (mkApp (Some w) (Some st) sz) wid ev acq []))) <= 1)%nat.
Proof.
  intros w st sz wid ev acq.
  destruct (Nat.eqb wid (win_id w)) eqn:Ew.
  2:{ apply Nat.eqb_neq in Ew. rewrite window_event_other_window by exact Ew.
      simpl. split; lia. }
  apply Nat.eqb_eq in Ew. subst wid. rewrite window_event_own_window.
  handler_paths; split; lia.
Qed.

(** X: after a successful [resumed], [about_to_wait] requests a redraw of
    the window [resumed] created and leaves the application unchanged. *)
Theorem resumed_then_about_to_wait_requests_redraw :
  forall (app : App) (env : Env) (tr : list Effect) (app' : App) (tr' : list Effect),
    resumed app env tr = Done app' tr' ->
    exists w, window app' = Some w /\ last tr' EExit = ECreateWindow (win_attrs w) /\
      about_to_wait app' tr' = Done app' (tr' ++ [ERequestRedraw (win_id w)]).
Proof.
  intros app env tr app' tr' H.
  unfold resumed, create_window, bind, unwrap, ret, panic, emit in H.
  destruct (env_window env) as [[wid wsz]|]; [|discriminate].
  simpl in H.
  match type of H with
  | match State_new ?w0 ?e0 ?t0 with _ => _ end = _ =>
      destruct (State_new w0 e0 t0) as [st tr1|m] eqn:E; [|discriminate]
  end.
  apply State_new_result in E as [-> _].
  injection H as <- <-.
  eexists. split; [reflexivity|]. split.
  - rewrite last_last. reflexivity.
  - reflexivity.
Qed.

Lemma resumed_then_about_to_wait_requests_redraw_witness :
  exists app' tr',
    resumed App_default sample_env [] = Done app' tr' /\
    exists w, window app' = Some w /\ last tr' EExit = ECreateWindow (win_attrs w) /\
      about_to_wait app' tr' = Done app' (tr' ++ [ERequestRedraw (win_id w)]).
Proof.
  do 2 eexists. split; [vm_compute; reflexivity|].
  apply (resumed_then_about_to_wait_requests_redraw App_default sample_env []).
  vm_compute. reflexivity.
Defined.
